(** * Account: login / logout / save / refresh against the hub

    A shallow embedding of
    [openbb_platform/core/openbb_core/app/static/account.py].

    The [Account] class reaches three collaborators that live in other
    modules: [HubService] (the remote hub client), [UserService] (the
    default local settings store) and [LoggingService].  They are taken
    here as an interface ([Collaborators]), so every theorem holds for
    any implementation of them.  The file system below the openbb directory
    and the current [user_settings] of the command runner are explicit
    state; Python exceptions are an outcome that keeps the state reached
    when they were raised. *)

From Stdlib Require Import String Ascii List Bool Arith Lia.
Import ListNotations.
Open Scope string_scope.
Open Scope list_scope.

(** ** Exceptions raised while reading the session file

    [json.load] raises [JSONDecodeError]; building the [HubSession] from
    the loaded dictionary raises pydantic's [ValidationError], or
    [TypeError] when the JSON document is not a mapping. *)
Inductive LoadExn : Type :=
| JSONDecodeError
| ValidationError
| TypeError.

(** ** The openbb directory, as far as [Account] looks at it

    [Path(self._openbb_directory, self.SESSION_FILE)] is the only file
    touched.  The directory may be missing, and so may its parent
    ([mkdir(parents=False, exist_ok=True)] tells them apart). *)
Inductive OpenbbDir : Type :=
| ParentMissing
| DirMissing
| DirPresent (session_file : option string).

Definition session_file_of (d : OpenbbDir) : option string :=
  match d with
  | DirPresent f => f
  | _ => None
  end.

Inductive FsOp : Type := Mkdir | OpenW | Dump | Unlink.

Definition SESSION_FILE : string := ".hub_session.json".

(** ** Types owned by other modules

    [HubSession], and the credentials and preferences of a
    [UserSettings]; what [HubService] raises and the server side state
    of the hub; the default local settings store behind [UserService]. *)
Class Types : Type := {
  HubSession : Type;
  Credentials : Type;
  Preferences : Type;
  HubExn : Type;
  Remote : Type;
  Store : Type
}.

Section Model.

Context {T : Types}.

(** *** Data model

    [hub_session] is an [Optional[HubSession]]; a [HubSession] is a
    pydantic model, hence always true in a test, so [if not hub_session]
    is the test for [None]. *)

Record UserProfile : Type := { hub_session : option HubSession }.

Record UserSettings : Type := {
  id : string;
  profile : UserProfile;
  credentials : Credentials;
  preferences : Preferences
}.

(** [updated.id = v] *)
Definition set_id (v : string) (u : UserSettings) : UserSettings :=
  {| id := v;
     profile := profile u;
     credentials := credentials u;
     preferences := preferences u |}.

(** A [HubService] instance: only its [session] property is visible
    to [Account]. *)
Record HubService : Type := { session : option HubSession }.

(** Exceptions, tagged by the place that raises them.
    [OpenBBError msg] is raised by account.py itself;
    [OpenBBErrorFrom e] is [raise OpenBBError(e) from e];
    [HubServiceExn], [SessionLoadExn] and [FileNotFoundError] are the
    exceptions, all subclasses of [Exception], that the hub client, the
    loading of the session file and the file system raise.
    [OtherException] is any other exception, by the name of its class,
    with whether the class derives from [Exception]: [KeyboardInterrupt],
    [SystemExit] and [GeneratorExit] do not. *)
Inductive Exn : Type :=
| OpenBBError (msg : string)
| OpenBBErrorFrom (original : Exn)
| HubServiceExn (e : HubExn)
| SessionLoadExn (e : LoadExn)
| FileNotFoundError
| OtherException (derives_from_Exception : bool) (class_name : string).

(** [isinstance(e, Exception)] *)
Definition is_Exception (e : Exn) : bool :=
  match e with
  | OtherException derives_from_Exception _ => derives_from_Exception
  | _ => true
  end.


Inductive Outcome (A : Type) : Type :=
| Return (a : A)
| Raise (e : Exn).
Arguments Return {A} a.
Arguments Raise {A} e.

(** The arguments of [LoggingService.log] that vary. *)
Record LogRecord : Type := {
  log_user_settings : UserSettings;
  route : string;
  func_name : string;
  kwargs : list (string * string);
  exec_info : option Exn
}.

(** Everything observable that an operation does, newest first. *)
Inductive Event : Type :=
| FsExists (found : bool)
| FsRead (content : string)
| FsChange (op : FsOp) (after : OpenbbDir)
| HubNew (s : option HubSession)
| HubConnect (email password pat : option string)
| HubPull
| HubPush (u : UserSettings)
| HubDisconnect
| Logged (r : LogRecord).

Record World : Type := {
  user_settings : UserSettings;   (* _base_app._command_runner.user_settings *)
  fs : OpenbbDir;                 (* _openbb_directory *)
  store : Store;
  remote : Remote;
  trace : list Event;
  handled : option Exn            (* sys.exc_info() where the caller stands *)
}.

Definition with_user_settings (u : UserSettings) (w : World) : World :=
  {| user_settings := u; fs := fs w; store := store w;
     remote := remote w; trace := trace w; handled := handled w |}.

Definition with_fs (d : OpenbbDir) (w : World) : World :=
  {| user_settings := user_settings w; fs := d; store := store w;
     remote := remote w; trace := trace w; handled := handled w |}.

Definition with_store (s : Store) (w : World) : World :=
  {| user_settings := user_settings w; fs := fs w; store := s;
     remote := remote w; trace := trace w; handled := handled w |}.

Definition with_remote (r : Remote) (w : World) : World :=
  {| user_settings := user_settings w; fs := fs w; store := store w;
     remote := r; trace := trace w; handled := handled w |}.

Definition record_event (e : Event) (w : World) : World :=
  {| user_settings := user_settings w; fs := fs w; store := store w;
     remote := remote w; trace := e :: trace w;
     handled := handled w |}.

(** *** The collaborators

    - [load_session]: [json.load(f)], then the [HubSession] built from
      the loaded dictionary;
    - [dump_session]: the text that
      [json.dump(hs.session.model_dump(mode="json"), f, indent=4)] writes;
    - [hub_connect]: [HubService.connect], giving the [session] the
      service ends up with; [hub_pull], [hub_push], [hub_disconnect]:
      the other calls of [HubService], given its [session];
    - the three class methods of [UserService], total as the settings
      store boundary has them. *)
Class Collaborators : Type := {
  load_session : string -> LoadExn + HubSession;
  dump_session : HubSession -> string;
  hub_connect :
    option string -> option string -> option string ->
    Remote -> (HubExn + option HubSession) * Remote;
  hub_pull : option HubSession -> Remote -> (HubExn + UserSettings) * Remote;
  hub_push :
    option HubSession -> UserSettings -> Remote -> (HubExn + unit) * Remote;
  hub_disconnect : option HubSession -> Remote -> (HubExn + unit) * Remote;
  read_default_user_settings : Store -> UserSettings;
  write_default_user_settings : UserSettings -> Store -> Store;
  update_default : Store -> UserSettings -> UserSettings
}.

Context {env : Collaborators}.

(** *** State and exception monad *)

Definition M (A : Type) : Type := World -> Outcome A * World.

Definition ret {A : Type} (a : A) : M A := fun w => (Return a, w).

Definition raise {A : Type} (e : Exn) : M A := fun w => (Raise e, w).

Definition bind {A B : Type} (m : M A) (k : A -> M B) : M B :=
  fun w =>
    match m w with
    | (Return a, w1) => k a w1
    | (Raise e, w1) => (Raise e, w1)
    end.

Notation "x <- m ;; k" := (bind m (fun x => k))
  (at level 61, m at next level, right associativity).
Notation "m ;;; k" := (bind m (fun _ => k))
  (at level 61, right associativity).

Definition emit (e : Event) : M unit :=
  fun w => (Return tt, record_event e w).

Definition get_user_settings : M UserSettings :=
  fun w => (Return (user_settings w), w).

Definition put_user_settings (u : UserSettings) : M unit :=
  fun w => (Return tt, with_user_settings u w).

(** **** File system primitives *)

(** [session_file.exists()] *)
Definition path_exists : M bool :=
  fun w =>
    let found := match session_file_of (fs w) with
                 | Some _ => true
                 | None => false
                 end in
    (Return found, record_event (FsExists found) w).

(** [open(session_file)] and reading it whole. *)
Definition open_read : M string :=
  fun w =>
    match session_file_of (fs w) with
    | Some content => (Return content, record_event (FsRead content) w)
    | None => (Raise FileNotFoundError, w)
    end.

(** [Path(self._openbb_directory).mkdir(parents=False, exist_ok=True)] *)
Definition mkdir : M unit :=
  fun w =>
    match fs w with
    | ParentMissing => (Raise FileNotFoundError, w)
    | DirMissing =>
        (Return tt,
         record_event (FsChange Mkdir (DirPresent None))
           (with_fs (DirPresent None) w))
    | DirPresent f => (Return tt, w)
    end.

(** [open(session_file, "w")]: creates the file or truncates it. *)
Definition open_w : M unit :=
  fun w =>
    match fs w with
    | DirPresent _ =>
        let d := DirPresent (Some EmptyString) in
        (Return tt, record_event (FsChange OpenW d) (with_fs d w))
    | _ => (Raise FileNotFoundError, w)
    end.

(** Writing [text] to the file opened by [open_w] and closing it. *)
Definition write_text (text : string) : M unit :=
  fun w =>
    match fs w with
    | DirPresent (Some content) =>
        let d := DirPresent (Some (String.append content text)) in
        (Return tt, record_event (FsChange Dump d) (with_fs d w))
    | _ => (Raise FileNotFoundError, w)
    end.

(** [session_file.unlink()] *)
Definition unlink : M unit :=
  fun w =>
    match fs w with
    | DirPresent (Some _) =>
        let d := DirPresent None in
        (Return tt, record_event (FsChange Unlink d) (with_fs d w))
    | _ => (Raise FileNotFoundError, w)
    end.

(** **** HubService *)

Definition lift_hub {A : Type}
    (call : Remote -> (HubExn + A) * Remote) : M A :=
  fun w =>
    match call (remote w) with
    | (inr a, r) => (Return a, with_remote r w)
    | (inl e, r) => (Raise (HubServiceExn e), with_remote r w)
    end.

(** [HubService(session)] *)
Definition HubService_init (s : option HubSession) : M HubService :=
  emit (HubNew s) ;;; ret {| session := s |}.

(** [hs.connect(email, password, pat)] *)
Definition hs_connect (hs : HubService) (email password pat : option string)
  : M HubService :=
  emit (HubConnect email password pat) ;;;
  s <- lift_hub (hub_connect email password pat) ;;
  ret {| session := s |}.

(** [hs.pull()] *)
Definition hs_pull (hs : HubService) : M UserSettings :=
  emit HubPull ;;; lift_hub (hub_pull (session hs)).

(** [hs.push(user_settings)] *)
Definition hs_push (hs : HubService) (u : UserSettings) : M unit :=
  emit (HubPush u) ;;; lift_hub (hub_push (session hs) u).

(** [hs.disconnect()] *)
Definition hs_disconnect (hs : HubService) : M unit :=
  emit HubDisconnect ;;; lift_hub (hub_disconnect (session hs)).

(** **** UserService *)

Definition UserService_update_default (incoming : UserSettings)
  : M UserSettings :=
  fun w => (Return (update_default (store w) incoming), w).

Definition UserService_read_default_user_settings : M UserSettings :=
  fun w => (Return (read_default_user_settings (store w)), w).

Definition UserService_write_default_user_settings (u : UserSettings)
  : M unit :=
  fun w => (Return tt, with_store (write_default_user_settings u (store w)) w).

(** *** account.py *)

Definition is_None {A : Type} (o : option A) : bool :=
  match o with
  | None => true
  | Some _ => false
  end.

(** [_log_account_command]: the decorator.  The clause
    [except Exception as e] wraps what derives from [Exception] and lets
    any other exception through as it is; the [finally] clause logs on
    the way out with [kwargs={}] and [exec_info=exc_info()].  While an
    exception leaves the function, [exc_info()] is that exception, as
    wrapped by the [except] clause when it was; when the function
    returned, it is whatever exception the caller is handling, if any. *)
Definition _log_account_command {A : Type} (name : string) (func : M A)
  : M A :=
  fun w =>
    let (result, w1) := func w in
    let result' := match result with
                   | Return a => Return a
                   | Raise e =>
                       if is_Exception e then Raise (OpenBBErrorFrom e)
                       else Raise e
                   end in
    let r := {| log_user_settings := user_settings w1;
                route := String.append "/account/" name;
                func_name := name;
                kwargs := [];
                exec_info := match result' with
                             | Return _ => handled w1
                             | Raise e' => Some e'
                             end |} in
    (result', record_event (Logged r) w1).

(** [_create_hub_service] *)
Definition _create_hub_service (email password pat : option string)
  : M HubService :=
  if is_None email && is_None password && is_None pat then
    found <- path_exists ;;
    if negb found then raise (OpenBBError "Session not found.")
    else
      text <- open_read ;;
      match load_session text with
      | inl e => raise (SessionLoadExn e)
      | inr hub_session => HubService_init (Some hub_session)
      end
  else
    hs <- HubService_init None ;;
    hs_connect hs email password pat.

Definition returning (return_settings : bool) : M (option UserSettings) :=
  if return_settings then
    u <- get_user_settings ;; ret (Some u)
  else ret None.

(** The function [login] before decoration. *)
Definition login_func (email password pat : option string)
    (remember_me return_settings : bool) : M (option UserSettings) :=
  hs <- _create_hub_service email password pat ;;
  incoming <- hs_pull hs ;;
  updated <- UserService_update_default incoming ;;
  put_user_settings updated ;;;
  (if remember_me then
     mkdir ;;;
     open_w ;;;
     match session hs with
     | None => raise (OpenBBError "Not connected to hub.")
     | Some s => write_text (dump_session s)
     end
   else ret tt) ;;;
  returning return_settings.

Definition login (email password pat : option string)
    (remember_me return_settings : bool) : M (option UserSettings) :=
  _log_account_command "login"
    (login_func email password pat remember_me return_settings).

Definition save_func (return_settings : bool) : M (option UserSettings) :=
  current <- get_user_settings ;;
  match hub_session (profile current) with
  | None => UserService_write_default_user_settings current
  | Some s =>
      hs <- HubService_init (Some s) ;;
      hs_push hs current
  end ;;;
  returning return_settings.

Definition save (return_settings : bool) : M (option UserSettings) :=
  _log_account_command "save" (save_func return_settings).

Definition refresh_func (return_settings : bool) : M (option UserSettings) :=
  current <- get_user_settings ;;
  match hub_session (profile current) with
  | None =>
      u <- UserService_read_default_user_settings ;;
      put_user_settings u
  | Some s =>
      hs <- HubService_init (Some s) ;;
      incoming <- hs_pull hs ;;
      updated <- UserService_update_default incoming ;;
      current' <- get_user_settings ;;
      put_user_settings (set_id (id current') updated)
  end ;;;
  returning return_settings.

Definition refresh (return_settings : bool) : M (option UserSettings) :=
  _log_account_command "refresh" (refresh_func return_settings).

Definition logout_func (return_settings : bool) : M (option UserSettings) :=
  current <- get_user_settings ;;
  match hub_session (profile current) with
  | None => raise (OpenBBError "Not connected to hub.")
  | Some s =>
      hs <- HubService_init (Some s) ;;
      hs_disconnect hs ;;;
      found <- path_exists ;;
      (if found then unlink else ret tt) ;;;
      u <- UserService_read_default_user_settings ;;
      put_user_settings u ;;;
      returning return_settings
  end.

Definition logout (return_settings : bool) : M (option UserSettings) :=
  _log_account_command "logout" (logout_func return_settings).

(** *** The four operations of [/account] *)

Inductive Operation : Type :=
| Login (email password pat : option string) (remember_me return_settings : bool)
| Save (return_settings : bool)
| Refresh (return_settings : bool)
| Logout (return_settings : bool).



(** The operation as callers reach it. *)
Definition call (op : Operation) : M (option UserSettings) :=
  match op with
  | Login email password pat remember_me return_settings =>
      login email password pat remember_me return_settings
  | Save return_settings => save return_settings
  | Refresh return_settings => refresh return_settings
  | Logout return_settings => logout return_settings
  end.

(** *** Reading a trace *)

(** A [HubService] was built or one of its methods called. *)
Definition is_remote (e : Event) : bool :=
  match e with
  | HubNew _ | HubConnect _ _ _ | HubPull | HubPush _ | HubDisconnect => true
  | _ => false
  end.

(** The session file was looked for or read. *)
Definition is_session_read (e : Event) : bool :=
  match e with
  | FsExists _ | FsRead _ => true
  | _ => false
  end.


(** The audit records of a trace, newest first. *)
Fixpoint records (t : list Event) : list LogRecord :=
  match t with
  | [] => []
  | Logged r :: t' => r :: records t'
  | _ :: t' => records t'
  end.

(** The contents the session file went through, oldest first, given a
    trace (newest first) of what happened. *)
Fixpoint file_contents (t : list Event) : list (option string) :=
  match t with
  | [] => []
  | FsChange _ after :: t' => file_contents t' ++ [session_file_of after]
  | _ :: t' => file_contents t'
  end.

(** Modelled from the spec: [UserService.update_default]
    (openbb_core/app/service/user_service.py) is not among the sources.
    The settings reconciler of the specification returns, for login, "a
    new settings object equal to remote"; of this, the identity of the
    pulled settings is what [login] relies on. *)
Definition keeps_identity : Prop :=
  forall (st : Store) (u : UserSettings), id (update_default st u) = id u.


(** The state is Connected when the current settings carry a session. *)
Definition connected (w : World) : bool :=
  negb (is_None (hub_session (profile (user_settings w)))).

(** *** Reading an operation *)

(** The [return_settings] argument of a call. *)
Definition return_settings_of (op : Operation) : bool :=
  match op with
  | Login _ _ _ _ return_settings => return_settings
  | Save return_settings => return_settings
  | Refresh return_settings => return_settings
  | Logout return_settings => return_settings
  end.

(** The one call that writes the default local settings: [save] when
    the current settings carry no hub session. *)
Definition writes_store (op : Operation) (w : World) : bool :=
  match op with
  | Save _ => negb (connected w)
  | _ => false
  end.

(** The events each operation is seen to produce in the source:
    [login] looks for the session file, reads it, builds a client,
    connects, pulls, and writes the file when asked to remember;
    [save] builds a client and pushes; [refresh] builds a client and
    pulls; [logout] builds a client, disconnects, looks for the file
    and unlinks it.  Every operation logs. *)
Definition permitted (op : Operation) (e : Event) : bool :=
  match e with
  | Logged _ => true
  | HubNew _ => true
  | FsExists _ =>
      match op with Login _ _ _ _ _ | Logout _ => true | _ => false end
  | FsRead _ | HubConnect _ _ _ =>
      match op with Login _ _ _ _ _ => true | _ => false end
  | HubPull =>
      match op with Login _ _ _ _ _ | Refresh _ => true | _ => false end
  | HubPush _ =>
      match op with Save _ => true | _ => false end
  | HubDisconnect =>
      match op with Logout _ => true | _ => false end
  | FsChange Unlink _ =>
      match op with Logout _ => true | _ => false end
  | FsChange _ _ =>
      match op with
      | Login _ _ _ remember_me _ => remember_me
      | _ => false
      end
  end.

End Model.

Arguments Return {T A} a.
Arguments Raise {T A} e.

(** * Institutional ownership: the [symbol] validators

    [openbb_core/provider/standard_models/institutional_ownership.py]
    gives the query parameters and the data of the standard model one
    validator each, both named [upper_symbol], run before validation.

    A Python [str] is taken as the list of its code points.
    [str.upper] applies the full uppercase mapping of Unicode to every
    code point in turn, whatever its neighbours, and one code point may
    map to several; that table is the argument [to_upper_full]. *)

Definition Str : Type := list nat.

(** [","] *)
Definition comma : Str := [44].

(** [v.upper()] *)
Definition str_upper (to_upper_full : nat -> list nat) (v : Str) : Str :=
  flat_map to_upper_full v.

(** [sep.join(parts)] *)
Fixpoint str_join (sep : Str) (parts : list Str) : Str :=
  match parts with
  | [] => []
  | [part] => part
  | part :: rest => part ++ sep ++ str_join sep rest
  end.

(** [Union[str, List[str], Set[str]]]; a set is given by its elements
    in the order [list(v)] yields them. *)
Inductive SymbolInput : Type :=
| OfStr (v : Str)
| OfList (v : list Str)
| OfSet (elements : list Str).

Module InstitutionalOwnershipQueryParams.

(** [upper_symbol] of the query parameters. *)
Definition upper_symbol (to_upper_full : nat -> list nat) (v : Str) : Str :=
  str_upper to_upper_full v.

End InstitutionalOwnershipQueryParams.

Module InstitutionalOwnershipData.

(** [upper_symbol] of the data. *)
Definition upper_symbol (to_upper_full : nat -> list nat) (v : SymbolInput)
  : Str :=
  match v with
  | OfStr text => str_upper to_upper_full text
  | OfList symbols | OfSet symbols =>
      str_join comma (map (str_upper to_upper_full) symbols)
  end.

End InstitutionalOwnershipData.

(** ** A small hub, to run the operations on

    Sessions are the token they were issued for; the hub counts the
    calls it serves; the default store keeps credentials and
    preferences. *)
Module Demo.

Definition types : Types := {|
  HubSession := string;
  Credentials := list (string * string);
  Preferences := list (string * string);
  HubExn := string;
  Remote := nat;
  Store := list (string * string) * list (string * string)
|}.

Definition Settings : Type := @UserSettings types.

Definition with_session (s : option string) : @UserProfile types :=
  @Build_UserProfile types s.

Definition load (text : string) : LoadExn + string :=
  if prefix "session=" text
  then inr (substring 8 (String.length text - 8) text)
  else inl JSONDecodeError.

Definition dump (s : string) : string := String.append "session=" s.

Definition connect (email password pat : option string) (n : nat)
  : (string + option string) * nat :=
  match pat, email, password with
  | Some t, _, _ => (inr (Some t), S n)
  | None, Some e, Some p => (inr (Some (String.append e (String.append ":" p))), S n)
  | _, _, _ => (inl "Please provide email and password or pat", S n)
  end.

Definition settings_of (token : string) : Settings :=
  {| id := String.append "hub-" token;
     profile := with_session (Some token);
     credentials := [("fmp_api_key", String.append "k-" token)];
     preferences := [("output_type", "dataframe")] |}.

Definition pull (s : option string) (n : nat) : (string + Settings) * nat :=
  match s with
  | Some t => (inr (settings_of t), S n)
  | None => (inl "not connected", S n)
  end.

Definition push (s : option string) (u : Settings) (n : nat)
  : (string + unit) * nat :=
  match s with
  | Some _ => (inr tt, S n)
  | None => (inl "not connected", S n)
  end.

Definition disconnect (s : option string) (n : nat) : (string + unit) * nat :=
  match s with
  | Some _ => (inr tt, S n)
  | None => (inl "not connected", S n)
  end.

Definition read_default
    (st : list (string * string) * list (string * string)) : Settings :=
  {| id := "local";
     profile := with_session None;
     credentials := fst st;
     preferences := snd st |}.

Definition write_default (u : Settings)
    (st : list (string * string) * list (string * string))
  : list (string * string) * list (string * string) :=
  (credentials u, preferences u).

Definition merge_default
    (st : list (string * string) * list (string * string)) (u : Settings)
  : Settings :=
  {| id := id u;
     profile := profile u;
     credentials := (credentials u : list (string * string)) ++ fst st;
     preferences := (preferences u : list (string * string)) ++ snd st |}.

Definition env : @Collaborators types := {|
  load_session := load : string -> LoadExn + @HubSession types;
  dump_session := dump : @HubSession types -> string;
  hub_connect := connect;
  hub_pull := pull;
  hub_push := push;
  hub_disconnect := disconnect;
  read_default_user_settings := read_default;
  write_default_user_settings := write_default;
  update_default := merge_default
|}.

(** A hub client that reports no live session after it connected. *)
Definition env_no_session : @Collaborators types := {|
  load_session := load : string -> LoadExn + @HubSession types;
  dump_session := dump : @HubSession types -> string;
  hub_connect := fun _ _ _ n => (inr None, S n);
  hub_pull := fun _ n => (inr (settings_of "T"), S n);
  hub_push := push;
  hub_disconnect := disconnect;
  read_default_user_settings := read_default;
  write_default_user_settings := write_default;
  update_default := merge_default
|}.

(** Anonymous, with nothing on disk but the openbb directory. *)
Definition anonymous : @World types := {|
  user_settings := read_default ([], []);
  fs := DirPresent None;
  store := ([], []);
  remote := 0;
  trace := [];
  handled := None
|}.

(** Connected as [alice], holding session [A], with a remembered
    session on disk. *)
Definition alice : @World types := {|
  user_settings :=
    {| id := "alice";
       profile := with_session (Some "A");
       credentials := [("fmp_api_key", "stale")];
       preferences := [] |};
  fs := DirPresent (Some "session=A");
  store := ([("fmp_api_key", "local")], []);
  remote := 0;
  trace := [];
  handled := None
|}.

(** A hub that cannot be reached. *)
Definition env_hub_down : @Collaborators types := {|
  load_session := load : string -> LoadExn + @HubSession types;
  dump_session := dump : @HubSession types -> string;
  hub_connect := fun _ _ _ n => (inl "unavailable", n);
  hub_pull := fun _ n => (inl "unavailable", n);
  hub_push := fun _ _ n => (inl "unavailable", n);
  hub_disconnect := fun _ n => (inl "unavailable", n);
  read_default_user_settings := read_default;
  write_default_user_settings := write_default;
  update_default := merge_default
|}.

(** The uppercase mapping on ASCII: [a] to [z] go to [A] to [Z]. *)
Definition ascii_upper (c : nat) : list nat :=
  if Nat.leb 97 c && Nat.leb c 122 then [c - 32] else [c].

(** The code points of an ASCII text. *)
Definition code_points (text : string) : Str :=
  map nat_of_ascii (list_ascii_of_string text).


(** [alice], calling from inside an [except] block that handles a
    [ValueError]. *)
Definition alice_handling : @World types := {|
  user_settings := user_settings alice;
  fs := fs alice;
  store := store alice;
  remote := remote alice;
  trace := [];
  handled := Some (OtherException true "ValueError")
|}.

(** Anonymous, with a session file that is not a session. *)
Definition corrupted : @World types :=
  with_fs (DirPresent (Some "{access_token")) anonymous.

End Demo.

(** * Properties *)

Section Properties.

Context {T : Types} {env : Collaborators}.

(** Unfolds an operation down to the state it computes. *)
Ltac unfold_account :=
  unfold login, save, refresh, logout, _log_account_command,
    login_func, save_func, refresh_func, logout_func,
    _create_hub_service, returning,
    HubService_init, hs_connect, hs_pull, hs_push, hs_disconnect, lift_hub,
    UserService_update_default, UserService_read_default_user_settings,
    UserService_write_default_user_settings,
    path_exists, open_read, mkdir, open_w, write_text, unlink,
    emit, get_user_settings, put_user_settings, bind, ret, raise.

(** Splits a goal on every test the computation makes, innermost
    test first. *)
Ltac case_paths :=
  repeat match goal with
  | |- context [match ?x with _ => _ end] =>
      lazymatch x with
      | context [match _ with _ => _ end] => fail
      | _ => destruct x eqn:?; simpl in *
      end
  end.

(** Gives the events put in front of a trace, up to eight of them. *)
Ltac name_prefix :=
  first
    [ exists []; split; [reflexivity |]
    | eexists [_]; split; [reflexivity |]
    | eexists [_; _]; split; [reflexivity |]
    | eexists [_; _; _]; split; [reflexivity |]
    | eexists [_; _; _; _]; split; [reflexivity |]
    | eexists [_; _; _; _; _]; split; [reflexivity |]
    | eexists [_; _; _; _; _; _]; split; [reflexivity |]
    | eexists [_; _; _; _; _; _; _]; split; [reflexivity |]
    | eexists [_; _; _; _; _; _; _; _]; split; [reflexivity |] ].

(** ** What a computation adds to the trace *)





















(** ** The decorator *)


(** ** Anonymous state: only the local store *)

(** C7. In Anonymous state (the current settings carry no hub session)
    [save] writes the current settings to the default local store and
    [refresh] installs the default local settings; neither builds a
    [HubService] nor calls one: the hub's state is untouched and the
    events of the call hold no remote event. *)
Theorem anonymous_save_refresh_stay_local :
  forall (return_settings : bool) (w : World),
    hub_session (profile (user_settings w)) = None ->
    (let (r, w') := save return_settings w in
     r = Return (if return_settings then Some (user_settings w) else None) /\
     store w' = write_default_user_settings (user_settings w) (store w) /\
     user_settings w' = user_settings w /\
     remote w' = remote w /\
     exists evs, trace w' = evs ++ trace w /\ existsb is_remote evs = false) /\
    (let (r, w') := refresh return_settings w in
     r = Return (if return_settings
                 then Some (read_default_user_settings (store w)) else None) /\
     user_settings w' = read_default_user_settings (store w) /\
     store w' = store w /\
     remote w' = remote w /\
     exists evs, trace w' = evs ++ trace w /\ existsb is_remote evs = false).
Proof.
  intros return_settings w Hanon.
  unfold_account. rewrite Hanon.
  split; destruct return_settings; simpl;
    (repeat split; eexists [_]; split; reflexivity).
Qed.

(** ** Resolving the hub client *)

(** C3. With no email, no password and no token, and no session file
    on disk, [login] fails with the wrapped "Session not found." error
    and reaches no [HubService]: the hub's state is untouched and the
    events of the call hold no remote event. *)
Theorem login_without_credentials_needs_session_file :
  forall (remember_me return_settings : bool) (w : World),
    session_file_of (fs w) = None ->
    let (r, w') := login None None None remember_me return_settings w in
    r = Raise (OpenBBErrorFrom (OpenBBError "Session not found.")) /\
    remote w' = remote w /\
    user_settings w' = user_settings w /\
    exists evs, trace w' = evs ++ trace w /\ existsb is_remote evs = false.
Proof.
  intros remember_me return_settings w Habsent.
  unfold_account. simpl. rewrite Habsent. simpl.
  repeat split. name_prefix. reflexivity.
Qed.

(** C8. With no email, no password and no token, and a session file
    whose content does not load into a [HubSession], [login] fails with
    the wrapped load error, which is not the "Session not found." error
    of a missing file; the file is left as it was and no [HubService] is
    reached. *)
Theorem corrupt_session_is_not_absence :
  forall (remember_me return_settings : bool) (w : World)
         (text : string) (err : LoadExn),
    session_file_of (fs w) = Some text ->
    load_session text = inl err ->
    let (r, w') := login None None None remember_me return_settings w in
    r = Raise (OpenBBErrorFrom (SessionLoadExn err)) /\
    r <> Raise (OpenBBErrorFrom (OpenBBError "Session not found.")) /\
    fs w' = fs w /\
    exists evs, trace w' = evs ++ trace w /\ existsb is_remote evs = false.
Proof.
  intros remember_me return_settings w text err Hfile Hload.
  unfold_account. simpl. repeat (rewrite Hfile; simpl). rewrite Hload. simpl.
  repeat split; [discriminate |]. name_prefix. reflexivity.
Qed.

(** C10. As soon as one of email, password and token is given, [login]
    never looks for the session file nor reads it: its first two events
    are a fresh [HubService] and [connect] with the three arguments as
    given, no later event touches the session file for reading, and the
    outcome is never the "Session not found." error.  The client is the
    one [connect] makes: when [connect] raises, that error reaches the
    caller wrapped, the hub is as [connect] left it and the settings are
    untouched; when it gives the session [s], the client holds [s], the
    pull is made with [s] on the hub as [connect] left it, and the
    outcome, the hub and the settings are those of that pull. *)
Theorem partial_credentials_bypass_session_file :
  forall (email password pat : option string)
         (remember_me return_settings : bool) (w : World),
    is_None email && is_None password && is_None pat = false ->
    let (r, w') := login email password pat remember_me return_settings w in
    (exists later,
       trace w' = later ++ HubConnect email password pat :: HubNew None :: trace w /\
       existsb is_session_read later = false) /\
    r <> Raise (OpenBBErrorFrom (OpenBBError "Session not found.")) /\
    match hub_connect email password pat (remote w) with
    | (inl e, hub') =>
        _create_hub_service email password pat w =
          (Raise (HubServiceExn e),
           with_remote hub'
             (record_event (HubConnect email password pat)
                (record_event (HubNew None) w))) /\
        r = Raise (OpenBBErrorFrom (HubServiceExn e)) /\
        remote w' = hub' /\
        user_settings w' = user_settings w
    | (inr s, hub') =>
        _create_hub_service email password pat w =
          (Return {| session := s |},
           with_remote hub'
             (record_event (HubConnect email password pat)
                (record_event (HubNew None) w))) /\
        match hub_pull s hub' with
        | (inl e, hub'') =>
            r = Raise (OpenBBErrorFrom (HubServiceExn e)) /\
            remote w' = hub'' /\
            user_settings w' = user_settings w
        | (inr incoming, hub'') =>
            remote w' = hub'' /\
            user_settings w' = update_default (store w) incoming
        end
    end.
Proof.
  intros email password pat remember_me return_settings w Hgiven.
  unfold_account. rewrite Hgiven. simpl.
  case_paths;
    (split; [name_prefix; reflexivity |]);
    (split; [discriminate |]);
    repeat split.
Qed.

(** ** Installing pulled settings *)

(** [login]: when resolving the client or the pull raises, the wrapped
    error reaches the caller and the current settings are untouched;
    otherwise the reconciled settings are the current ones afterwards,
    whatever happens to the session file. *)
Lemma login_commit :
  forall (email password pat : option string)
         (remember_me return_settings : bool) (w : World),
    let (r, w') := login email password pat remember_me return_settings w in
    match bind (_create_hub_service email password pat) hs_pull w with
    | (Return incoming, _) =>
        user_settings w' = update_default (store w) incoming
    | (Raise err, _) =>
        r = Raise (OpenBBErrorFrom err) /\ user_settings w' = user_settings w
    end.
Proof.
  intros. unfold_account. case_paths; try split; reflexivity.
Qed.

(** [refresh] in Connected state: likewise, with the current [id] put
    on the reconciled settings before they are installed. *)
Lemma refresh_commit :
  forall (return_settings : bool) (w : World) (s : HubSession),
    hub_session (profile (user_settings w)) = Some s ->
    let (r, w') := refresh return_settings w in
    match hub_pull (Some s) (remote w) with
    | (inr incoming, _) =>
        user_settings w' =
          set_id (id (user_settings w)) (update_default (store w) incoming) /\
        r = Return (if return_settings then Some (user_settings w') else None)
    | (inl err, _) =>
        r = Raise (OpenBBErrorFrom (HubServiceExn err)) /\
        user_settings w' = user_settings w
    end.
Proof.
  intros return_settings w s Hs. unfold_account. rewrite Hs. simpl.
  case_paths; split; reflexivity.
Qed.

(** C1. In Connected state with current [id = X], when the pull returns
    settings with [id = Y], [refresh] succeeds and the settings it
    installs have [id = X]; their profile, credentials and preferences
    are those of the pulled settings as reconciled by [update_default]. *)
Theorem refresh_preserves_identity :
  forall (return_settings : bool) (w : World) (s : HubSession)
         (X Y : string) (incoming : UserSettings) (hub' : Remote),
    hub_session (profile (user_settings w)) = Some s ->
    id (user_settings w) = X ->
    hub_pull (Some s) (remote w) = (inr incoming, hub') ->
    id incoming = Y ->
    let (r, w') := refresh return_settings w in
    let reconciled := update_default (store w) incoming in
    id (user_settings w') = X /\
    profile (user_settings w') = profile reconciled /\
    credentials (user_settings w') = credentials reconciled /\
    preferences (user_settings w') = preferences reconciled /\
    r = Return (if return_settings then Some (user_settings w') else None).
Proof.
  intros return_settings w s X Y incoming hub' Hs HX Hpull HY.
  pose proof (refresh_commit return_settings w s Hs) as H.
  destruct (refresh return_settings w) as [r w'].
  rewrite Hpull in H. destruct H as [Hinstalled Hr].
  rewrite Hinstalled. simpl. rewrite <- Hinstalled.
  repeat split; assumption.
Qed.

(** C5. When [update_default] keeps the [id] of the settings it is
    given, and resolving the client and pulling returns settings with
    [id = Y], the settings current after a successful [login] have
    [id = Y], whatever the [id] was before. *)
Theorem login_takes_remote_identity :
  forall (email password pat : option string)
         (remember_me return_settings : bool) (w w1 w' : World)
         (incoming : UserSettings) (Y : string) (res : option UserSettings),
    keeps_identity ->
    bind (_create_hub_service email password pat) hs_pull w
      = (Return incoming, w1) ->
    id incoming = Y ->
    login email password pat remember_me return_settings w = (Return res, w') ->
    id (user_settings w') = Y.
Proof.
  intros email password pat remember_me return_settings w w1 w' incoming Y res
    Hkeeps Hpulled HY Hlogin.
  pose proof (login_commit email password pat remember_me return_settings w) as H.
  rewrite Hlogin, Hpulled in H.
  rewrite H, Hkeeps. exact HY.
Qed.

(** C9. [login], and [refresh] in Connected state, install all or
    nothing: when the pull (or, for [login], resolving the client)
    raises, the operation fails and the current settings are untouched;
    otherwise the current settings are, whole, the reconciled pull (with
    the current [id] for [refresh]). *)
Theorem settings_commit_all_or_nothing :
  (forall (email password pat : option string)
          (remember_me return_settings : bool) (w : World),
     let (r, w') := login email password pat remember_me return_settings w in
     match bind (_create_hub_service email password pat) hs_pull w with
     | (Return incoming, _) =>
         user_settings w' = update_default (store w) incoming
     | (Raise err, _) =>
         r = Raise (OpenBBErrorFrom err) /\ user_settings w' = user_settings w
     end) /\
  (forall (return_settings : bool) (w : World) (s : HubSession),
     hub_session (profile (user_settings w)) = Some s ->
     let (r, w') := refresh return_settings w in
     match hub_pull (Some s) (remote w) with
     | (inr incoming, _) =>
         user_settings w' =
           set_id (id (user_settings w)) (update_default (store w) incoming)
     | (inl err, _) =>
         r = Raise (OpenBBErrorFrom (HubServiceExn err)) /\
         user_settings w' = user_settings w
     end).
Proof.
  split.
  - exact login_commit.
  - intros return_settings w s Hs.
    pose proof (refresh_commit return_settings w s Hs) as H.
    destruct (refresh return_settings w) as [r w'].
    destruct (hub_pull (Some s) (remote w)) as [[err | incoming] hub'].
    + exact H.
    + exact (proj1 H).
Qed.

(** ** Logout *)

Lemma logout_anonymous :
  forall (return_settings : bool) (w : World),
    hub_session (profile (user_settings w)) = None ->
    logout return_settings w =
      (Raise (OpenBBErrorFrom (OpenBBError "Not connected to hub.")),
       record_event
         (Logged {| log_user_settings := user_settings w;
                    route := "/account/logout";
                    func_name := "logout";
                    kwargs := [];
                    exec_info :=
                      Some (OpenBBErrorFrom (OpenBBError "Not connected to hub.")) |})
         w).
Proof.
  intros return_settings w Hanon. unfold_account. rewrite Hanon. reflexivity.
Qed.

(** X12.  When [disconnect] raises, [logout] stops there: the state stays
    Connected and the session file is not touched. *)
Lemma logout_disconnect_raises :
  forall (return_settings : bool) (w : World) (s : HubSession)
         (e : HubExn) (hub' : Remote),
    hub_session (profile (user_settings w)) = Some s ->
    hub_disconnect (Some s) (remote w) = (inl e, hub') ->
    let (r, w') := logout return_settings w in
    r = Raise (OpenBBErrorFrom (HubServiceExn e)) /\
    user_settings w' = user_settings w /\
    fs w' = fs w.
Proof.
  intros return_settings w s e hub' Hs Hdisconnect.
  unfold_account. rewrite Hs. simpl. rewrite Hdisconnect. simpl.
  repeat split.
Qed.

(** C2. In Connected state, when [disconnect] goes through and the
    default local settings carry no hub session, [logout] succeeds: it
    calls [disconnect], the session file is absent afterwards whether or
    not it existed, and the default local settings are installed, so the
    state is Anonymous; another [logout] right after fails with the
    wrapped "Not connected to hub." error.  So does any [logout] in
    Anonymous state, which changes nothing. *)
Theorem logout_idempotent :
  (forall (return_settings again : bool) (w : World)
          (s : HubSession) (hub' : Remote),
     hub_session (profile (user_settings w)) = Some s ->
     hub_disconnect (Some s) (remote w) = (inr tt, hub') ->
     hub_session (profile (read_default_user_settings (store w))) = None ->
     let (r, w') := logout return_settings w in
     r = Return (if return_settings
                 then Some (read_default_user_settings (store w)) else None) /\
     (exists evs, trace w' = evs ++ trace w /\ In HubDisconnect evs) /\
     remote w' = hub' /\
     session_file_of (fs w') = None /\
     user_settings w' = read_default_user_settings (store w) /\
     connected w' = false /\
     fst (logout again w') =
       Raise (OpenBBErrorFrom (OpenBBError "Not connected to hub."))) /\
  (forall (return_settings : bool) (w : World),
     hub_session (profile (user_settings w)) = None ->
     let (r, w') := logout return_settings w in
     r = Raise (OpenBBErrorFrom (OpenBBError "Not connected to hub.")) /\
     user_settings w' = user_settings w /\
     fs w' = fs w /\
     remote w' = remote w).
Proof.
  split.
  - intros return_settings again w s hub' Hs Hdisconnect Hdefault.
    assert (Hsecond : forall w', user_settings w' =
                        read_default_user_settings (store w) ->
              fst (logout again w') =
                Raise (OpenBBErrorFrom (OpenBBError "Not connected to hub."))).
    { intros w' Hu. rewrite logout_anonymous; [reflexivity |].
      rewrite Hu. exact Hdefault. }
    assert (Hstate : forall w', user_settings w' =
                       read_default_user_settings (store w) ->
              connected w' = false).
    { intros w' Hu. unfold connected. rewrite Hu, Hdefault. reflexivity. }
    set (second := logout again).
    unfold_account. rewrite Hs. simpl. rewrite Hdisconnect. simpl.
    destruct (fs w) as [| | [content |]] eqn:Hfs; simpl;
      destruct return_settings; simpl; rewrite ?Hfs; simpl;
      (split; [reflexivity |]);
      (split; [name_prefix; simpl; tauto |]);
      (split; [reflexivity |]);
      (split; [reflexivity |]);
      (split; [reflexivity |]);
      (split; [apply Hstate | subst second; apply Hsecond]); reflexivity.
  - intros return_settings w Hanon.
    rewrite (logout_anonymous return_settings w Hanon).
    repeat split.
Qed.

(** ** Persisting the session *)

(** C6, as the code has it.  [login] with [remember_me] writes the
    session file in two steps: [open] in mode [w] leaves it empty, then
    the serialized session is written.  When [login] returns, the file
    went through the empty content and holds exactly the serialized
    session of the client, whatever it held before.  When [login]
    raises, either the error is the wrapped "Not connected to hub." of
    a client without a live session, or the file system is as it was. *)
Theorem login_session_file_write :
  forall (email password pat : option string)
         (return_settings : bool) (w : World),
    let (r, w') := login email password pat true return_settings w in
    match r with
    | Return _ =>
        exists hs w1 s,
          _create_hub_service email password pat w = (Return hs, w1) /\
          session hs = Some s /\
          session_file_of (fs w') = Some (dump_session s) /\
          exists evs, trace w' = evs ++ trace w /\
            exists before,
              file_contents evs =
                before ++ [Some EmptyString; Some (dump_session s)]
    | Raise err =>
        err = OpenBBErrorFrom (OpenBBError "Not connected to hub.") \/
        fs w' = fs w
    end.
Proof.
  intros. unfold_account.
  case_paths; try (right; simpl; congruence); try (left; reflexivity);
    (eexists; eexists; eexists;
     split; [reflexivity |]; split; [reflexivity |]; split; [reflexivity |];
     name_prefix; simpl;
     first [ exists []; reflexivity | eexists [_]; reflexivity ]).
Qed.

(** ** Beyond the four contracts: what the operations leave alone *)

(** X1.  [save] in Connected state builds a client on the current session
    and pushes the current settings with it, nothing else: the current
    settings, the session file and the default local store are as they
    were; the call returns when [push] returns and raises the wrapped
    hub error when [push] raises. *)
Theorem save_connected_pushes :
  forall (return_settings : bool) (w : World) (s : HubSession),
    hub_session (profile (user_settings w)) = Some s ->
    let (r, w') := save return_settings w in
    user_settings w' = user_settings w /\
    fs w' = fs w /\
    store w' = store w /\
    (exists rec,
       trace w' =
         Logged rec :: HubPush (user_settings w) :: HubNew (Some s) :: trace w) /\
    match hub_push (Some s) (user_settings w) (remote w) with
    | (inr _, hub') =>
        r = Return (if return_settings then Some (user_settings w) else None) /\
        remote w' = hub'
    | (inl e, hub') =>
        r = Raise (OpenBBErrorFrom (HubServiceExn e)) /\ remote w' = hub'
    end.
Proof.
  intros return_settings w s Hs. unfold_account. rewrite Hs. simpl.
  destruct (hub_push (Some s) (user_settings w) (remote w)) as [[e | u] hub'];
    simpl; destruct return_settings; simpl;
    repeat split; eexists; reflexivity.
Qed.

(** X2.  The default local settings are written by one call only, [save]
    in Anonymous state, and then with the current settings; every
    other call, whatever its outcome, leaves the store as it was. *)
Theorem store_written_by_anonymous_save_only :
  forall (op : Operation) (w : World),
    store (snd (call op w)) =
      if writes_store op w
      then write_default_user_settings (user_settings w) (store w)
      else store w.
Proof.
  intros op w. destruct op; simpl; unfold connected; unfold_account;
    case_paths; reflexivity.
Qed.

(** X3.  [save], [refresh] and a [login] that is not asked to remember
    leave the openbb directory and the session file as they were,
    whatever their outcome. *)
Theorem session_file_left_alone :
  forall (op : Operation) (w : World),
    match op with
    | Login _ _ _ true _ | Logout _ => True
    | _ => fs (snd (call op w)) = fs w
    end.
Proof.
  intros op w. destruct op as [email password pat [|] rs | rs | rs | rs];
    simpl; trivial; unfold_account; case_paths; reflexivity.
Qed.

(** X4.  When an operation returns, it returns the settings that are
    current after it if [return_settings] is set, and [None] if not. *)
Theorem returns_current_settings :
  forall (op : Operation) (w : World),
    let (r, w') := call op w in
    match r with
    | Return v =>
        v = if return_settings_of op then Some (user_settings w') else None
    | Raise _ => True
    end.
Proof.
  intros op w. destruct op; simpl; unfold_account; case_paths;
    trivial; reflexivity.
Qed.

(** X5.  No operation produces an event outside those [permitted] to it.
    So [save] and [refresh] never look at the session file, [save]
    never pulls, [refresh] never pushes, [logout] never connects, pulls
    or pushes, only [login] connects, and only a [login] asked to
    remember writes the session file. *)
Theorem operations_keep_to_their_events :
  forall (op : Operation) (w : World),
    exists evs,
      trace (snd (call op w)) = evs ++ trace w /\
      forallb (permitted op) evs = true.
Proof.
  intros op w. destruct op; simpl; unfold_account; case_paths;
    name_prefix; reflexivity.
Qed.

(** ** Resuming a stored session *)

(** With no credential, a session file holding [text] and [text]
    loading into the session [s], [_create_hub_service] gives a client
    on [s] after looking for the file and reading it; it does not call
    the hub. *)
Lemma create_hub_service_from_file :
  forall (w : World) (text : string) (s : HubSession),
    session_file_of (fs w) = Some text ->
    load_session text = inr s ->
    _create_hub_service None None None w =
      (Return {| session := Some s |},
       record_event (HubNew (Some s))
         (record_event (FsRead text) (record_event (FsExists true) w))).
Proof.
  intros w text s Hfile Hload. unfold_account. simpl.
  repeat (rewrite Hfile; simpl). rewrite Hload. reflexivity.
Qed.

(** X7.  [login] with no credential and a session file that loads into [s]
    resumes [s]: it reads the file, builds the client on [s] and pulls
    with it, never calling [connect].  When the pull returns, the
    reconciled settings are installed; when it raises, the wrapped hub
    error reaches the caller and the settings are as they were. *)
Theorem login_resumes_stored_session :
  forall (remember_me return_settings : bool) (w : World)
         (text : string) (s : HubSession),
    session_file_of (fs w) = Some text ->
    load_session text = inr s ->
    let (r, w') := login None None None remember_me return_settings w in
    (exists later,
       trace w' =
         later ++ HubPull :: HubNew (Some s) :: FsRead text
           :: FsExists true :: trace w /\
       forallb (fun e => match e with
                         | HubConnect _ _ _ | HubNew _ | HubPull => false
                         | _ => true
                         end) later = true) /\
    match hub_pull (Some s) (remote w) with
    | (inr incoming, hub') =>
        user_settings w' = update_default (store w) incoming /\
        remote w' = hub'
    | (inl e, hub') =>
        r = Raise (OpenBBErrorFrom (HubServiceExn e)) /\
        user_settings w' = user_settings w /\
        remote w' = hub'
    end.
Proof.
  intros remember_me return_settings w text s Hfile Hload.
  unfold_account. simpl. repeat (rewrite Hfile; simpl). rewrite Hload. simpl.
  case_paths; (split; [name_prefix; reflexivity |]); repeat split.
Qed.

(** A [login] asked to remember that returns leaves on disk the
    serialized session of the client it resolved. *)
Lemma login_remembers_client_session :
  forall (email password pat : option string) (return_settings : bool)
         (w w' : World) (v : option UserSettings),
    login email password pat true return_settings w = (Return v, w') ->
    exists hs w1 s,
      _create_hub_service email password pat w = (Return hs, w1) /\
      session hs = Some s /\
      session_file_of (fs w') = Some (dump_session s).
Proof.
  intros email password pat return_settings w w' v. unfold_account.
  case_paths; intros H; try discriminate;
    injection H as _ <-; simpl;
    eexists; eexists; eexists; repeat split; reflexivity.
Qed.

(** X8.  Remember-me round trip.  When a serialized session loads back
    into itself, the file left by a [login] asked to remember makes any
    later resolution with no credential, from a state with that file,
    give a client on the very session the first client held. *)
Theorem remember_me_round_trip :
  forall (email password pat : option string) (return_settings : bool)
         (w w' : World) (v : option UserSettings),
    (forall s, load_session (dump_session s) = inr s) ->
    login email password pat true return_settings w = (Return v, w') ->
    exists hs w1 s,
      _create_hub_service email password pat w = (Return hs, w1) /\
      session hs = Some s /\
      forall w2, fs w2 = fs w' ->
        fst (_create_hub_service None None None w2) =
          Return {| session := Some s |}.
Proof.
  intros email password pat return_settings w w' v Hround Hlogin.
  destruct (login_remembers_client_session _ _ _ _ _ _ _ Hlogin)
    as (hs & w1 & s & Hcreate & Hsession & Hfile).
  exists hs, w1, s. repeat split; try assumption.
  intros w2 Hfs. rewrite <- Hfs in Hfile.
  rewrite (create_hub_service_from_file w2 _ s Hfile (Hround s)).
  reflexivity.
Qed.

(** ** The write of the session file, case by case *)

Lemma bind_Return {A B : Type} (m : M A) (k : A -> M B)
    (w w1 : World) (a : A) :
  m w = (Return a, w1) -> bind m k w = k a w1.
Proof. intros H. unfold bind. rewrite H. reflexivity. Qed.

(** Resolving the client and pulling change neither the current
    settings, nor the openbb directory, nor the default local store. *)
Lemma create_hub_service_frame :
  forall (email password pat : option string) (w : World),
    let (r, w1) := _create_hub_service email password pat w in
    user_settings w1 = user_settings w /\ fs w1 = fs w /\ store w1 = store w.
Proof.
  intros. unfold_account. case_paths; repeat split.
Qed.

Lemma hs_pull_frame :
  forall (hs : HubService) (w : World),
    let (r, w1) := hs_pull hs w in
    user_settings w1 = user_settings w /\ fs w1 = fs w /\ store w1 = store w.
Proof.
  intros. unfold_account. case_paths; repeat split.
Qed.

(** Brings [login], asked to remember, to the point where the pulled
    settings are installed and the file is about to be written. *)
Lemma login_after_pull :
  forall (email password pat : option string) (return_settings : bool)
         (w w1 w2 : World) (hs : HubService) (incoming : UserSettings),
    _create_hub_service email password pat w = (Return hs, w1) ->
    hs_pull hs w1 = (Return incoming, w2) ->
    fs w2 = fs w /\
    login_func email password pat true return_settings w =
      bind (bind mkdir (fun _ =>
            bind open_w (fun _ =>
            match session hs with
            | None => raise (OpenBBError "Not connected to hub.")
            | Some s => write_text (dump_session s)
            end)))
        (fun _ => returning return_settings)
        (with_user_settings (update_default (store w) incoming) w2).
Proof.
  intros email password pat return_settings w w1 w2 hs incoming Hcreate Hpull.
  pose proof (create_hub_service_frame email password pat w) as Hf1.
  rewrite Hcreate in Hf1. destruct Hf1 as (_ & Hfs1 & Hstore1).
  pose proof (hs_pull_frame hs w1) as Hf2.
  rewrite Hpull in Hf2. destruct Hf2 as (_ & Hfs2 & Hstore2).
  split; [congruence |].
  unfold login_func.
  rewrite (bind_Return _ _ _ _ _ Hcreate), (bind_Return _ _ _ _ _ Hpull).
  unfold UserService_update_default, put_user_settings.
  unfold bind at 1 2. rewrite Hstore2, Hstore1. reflexivity.
Qed.

(** X9.  [mkdir] is not recursive.  When the parent of the openbb
    directory is missing, a [login] asked to remember whose client is
    resolved and whose pull returns fails with the wrapped
    [FileNotFoundError]; by then the reconciled settings are installed,
    and they stay. *)
Theorem login_remember_me_parent_missing :
  forall (email password pat : option string) (return_settings : bool)
         (w w1 w2 : World) (hs : HubService) (incoming : UserSettings),
    _create_hub_service email password pat w = (Return hs, w1) ->
    hs_pull hs w1 = (Return incoming, w2) ->
    fs w = ParentMissing ->
    let (r, w') := login email password pat true return_settings w in
    r = Raise (OpenBBErrorFrom FileNotFoundError) /\
    user_settings w' = update_default (store w) incoming /\
    fs w' = ParentMissing.
Proof.
  intros email password pat return_settings w w1 w2 hs incoming
    Hcreate Hpull Hfs.
  destruct (login_after_pull _ _ _ return_settings _ _ _ _ _ Hcreate Hpull)
    as [Hfs2 Hlogin].
  unfold login, _log_account_command. rewrite Hlogin.
  unfold bind, mkdir. simpl. rewrite Hfs2, Hfs. simpl.
  repeat split. rewrite Hfs2. exact Hfs.
Qed.

(** X10.  When only the openbb directory is missing, a [login] asked to
    remember makes it, then the empty file, then writes the session:
    it returns with the directory holding exactly the serialized
    session of the client. *)
Theorem login_remember_me_makes_directory :
  forall (email password pat : option string) (return_settings : bool)
         (w w1 w2 : World) (hs : HubService) (incoming : UserSettings)
         (s : HubSession),
    _create_hub_service email password pat w = (Return hs, w1) ->
    hs_pull hs w1 = (Return incoming, w2) ->
    session hs = Some s ->
    fs w = DirMissing ->
    let (r, w') := login email password pat true return_settings w in
    r = Return (if return_settings
                then Some (update_default (store w) incoming) else None) /\
    fs w' = DirPresent (Some (dump_session s)) /\
    exists rec,
      trace w' =
        Logged rec
          :: FsChange Dump (DirPresent (Some (dump_session s)))
          :: FsChange OpenW (DirPresent (Some EmptyString))
          :: FsChange Mkdir (DirPresent None) :: trace w2.
Proof.
  intros email password pat return_settings w w1 w2 hs incoming s
    Hcreate Hpull Hsession Hfs.
  destruct (login_after_pull _ _ _ return_settings _ _ _ _ _ Hcreate Hpull)
    as [Hfs2 Hlogin].
  unfold login, _log_account_command. rewrite Hlogin.
  unfold bind, mkdir, open_w, write_text, returning, get_user_settings, ret.
  simpl. rewrite Hfs2, Hfs. simpl. rewrite Hsession. simpl.
  destruct return_settings; simpl; repeat split; eexists; reflexivity.
Qed.

(** X11.  The check for a live session is made after the file is opened for
    writing.  When the client resolved by [login] has no session and
    the pull returns all the same, a [login] asked to remember fails
    with the wrapped "Not connected to hub." error once the openbb
    directory exists or could be made; the session file is left empty,
    whatever it held, and the reconciled settings are installed. *)
Theorem login_remember_me_without_session :
  forall (email password pat : option string) (return_settings : bool)
         (w w1 w2 : World) (hs : HubService) (incoming : UserSettings),
    _create_hub_service email password pat w = (Return hs, w1) ->
    hs_pull hs w1 = (Return incoming, w2) ->
    session hs = None ->
    fs w <> ParentMissing ->
    let (r, w') := login email password pat true return_settings w in
    r = Raise (OpenBBErrorFrom (OpenBBError "Not connected to hub.")) /\
    fs w' = DirPresent (Some EmptyString) /\
    user_settings w' = update_default (store w) incoming.
Proof.
  intros email password pat return_settings w w1 w2 hs incoming
    Hcreate Hpull Hsession Hfs.
  destruct (login_after_pull _ _ _ return_settings _ _ _ _ _ Hcreate Hpull)
    as [Hfs2 Hlogin].
  unfold login, _log_account_command. rewrite Hlogin.
  unfold bind, mkdir, open_w, raise. simpl. rewrite Hfs2.
  destruct (fs w) as [| | f]; [contradiction | |];
    simpl; rewrite ?Hfs2; simpl; rewrite Hsession; simpl; repeat split.
Qed.

End Properties.

(** * Properties of the symbol validators *)

Section SymbolProperties.

Variable to_upper_full : nat -> list nat.

Lemma str_upper_app (a b : Str) :
  str_upper to_upper_full (a ++ b) =
    str_upper to_upper_full a ++ str_upper to_upper_full b.
Proof. unfold str_upper. apply flat_map_app. Qed.

(** Uppercasing goes through a join on commas, when the comma is its
    own uppercase. *)
Lemma str_upper_join (parts : list Str) :
  to_upper_full 44 = [44] ->
  str_upper to_upper_full (str_join comma parts) =
    str_join comma (map (str_upper to_upper_full) parts).
Proof.
  intros Hcomma. induction parts as [| part rest IH]; [reflexivity |].
  destruct rest as [| next rest]; [reflexivity |].
  change (str_join comma (part :: next :: rest))
    with (part ++ comma ++ str_join comma (next :: rest)).
  rewrite !str_upper_app, IH.
  replace (str_upper to_upper_full comma) with comma
    by (unfold str_upper, comma; simpl; rewrite Hcomma; reflexivity).
  reflexivity.
Qed.

(** Uppercasing twice is uppercasing once, when it is so for the
    mapping of each code point. *)
Lemma str_upper_twice (v : Str) :
  (forall c, str_upper to_upper_full (to_upper_full c) = to_upper_full c) ->
  str_upper to_upper_full (str_upper to_upper_full v) =
    str_upper to_upper_full v.
Proof.
  intros Hstable. induction v as [| c v IH]; [reflexivity |].
  change (str_upper to_upper_full (c :: v))
    with (to_upper_full c ++ str_upper to_upper_full v).
  rewrite str_upper_app, Hstable, IH. reflexivity.
Qed.

(** X13.  A list (or a set) of symbols and the same symbols already joined
    by commas in one text validate to the same text. *)
Theorem symbols_as_list_or_joined :
  to_upper_full 44 = [44] ->
  forall symbols : list Str,
    InstitutionalOwnershipData.upper_symbol to_upper_full (OfList symbols) =
      InstitutionalOwnershipData.upper_symbol to_upper_full
        (OfStr (str_join comma symbols)) /\
    InstitutionalOwnershipData.upper_symbol to_upper_full (OfSet symbols) =
      InstitutionalOwnershipData.upper_symbol to_upper_full
        (OfStr (str_join comma symbols)).
Proof.
  intros Hcomma symbols. simpl.
  rewrite str_upper_join by assumption. split; reflexivity.
Qed.

(** X14.  Validating a validated symbol changes nothing: the text the data
    validator gives for any input is left as it is when validated
    again. *)
Theorem upper_symbol_idempotent :
  (forall c, str_upper to_upper_full (to_upper_full c) = to_upper_full c) ->
  to_upper_full 44 = [44] ->
  forall v : SymbolInput,
    InstitutionalOwnershipData.upper_symbol to_upper_full
      (OfStr (InstitutionalOwnershipData.upper_symbol to_upper_full v)) =
    InstitutionalOwnershipData.upper_symbol to_upper_full v.
Proof.
  intros Hstable Hcomma v.
  assert (Hjoined : forall symbols,
            str_upper to_upper_full
              (str_join comma (map (str_upper to_upper_full) symbols)) =
            str_join comma (map (str_upper to_upper_full) symbols)).
  { intros symbols. rewrite str_upper_join by assumption.
    rewrite map_map. f_equal. apply map_ext.
    intros a. apply str_upper_twice. assumption. }
  destruct v as [text | symbols | symbols]; simpl.
  - apply str_upper_twice. assumption.
  - apply Hjoined.
  - apply Hjoined.
Qed.

(** X15.  The symbol of a query, once validated, is a text the data
    validator keeps: a record carrying the symbol as queried validates
    to the symbol of the query. *)
Theorem query_symbol_kept_by_data :
  (forall c, str_upper to_upper_full (to_upper_full c) = to_upper_full c) ->
  forall v : Str,
    InstitutionalOwnershipData.upper_symbol to_upper_full
      (OfStr (InstitutionalOwnershipQueryParams.upper_symbol to_upper_full v)) =
    InstitutionalOwnershipQueryParams.upper_symbol to_upper_full v.
Proof.
  intros Hstable v. simpl.
  unfold InstitutionalOwnershipQueryParams.upper_symbol.
  apply str_upper_twice. assumption.
Qed.

End SymbolProperties.

(** * The properties at work on the small hub *)

#[local] Existing Instance Demo.env.

(** C1 on [alice]: the hub says [hub-A], the session keeps [alice]. *)
Lemma refresh_preserves_identity_witness :
  hub_session (profile (user_settings Demo.alice)) = Some "A" /\
  id (user_settings Demo.alice) = "alice" /\
  Demo.pull (Some "A") (remote Demo.alice) = (inr (Demo.settings_of "A"), 1) /\
  id (Demo.settings_of "A") = "hub-A" /\
  id (user_settings (snd (refresh true Demo.alice))) = "alice" /\
  credentials (user_settings (snd (refresh true Demo.alice))) =
    [("fmp_api_key", "k-A"); ("fmp_api_key", "local")].
Proof.
  do 4 (split; [reflexivity |]).
  pose proof (refresh_preserves_identity true Demo.alice "A" "alice" "hub-A"
                (Demo.settings_of "A") 1 eq_refl eq_refl eq_refl eq_refl) as H.
  destruct (refresh true Demo.alice) as [r w'].
  destruct H as (Hid & _ & Hcredentials & _).
  split; [exact Hid | exact Hcredentials].
Defined.

(** C2 on [alice], who has a remembered session, and on the anonymous
    state. *)
Lemma logout_idempotent_witness :
  hub_session (profile (user_settings Demo.alice)) = Some "A" /\
  Demo.disconnect (Some "A") (remote Demo.alice) = (inr tt, 1) /\
  hub_session (profile (Demo.read_default (store Demo.alice))) = None /\
  session_file_of (fs Demo.alice) = Some "session=A" /\
  session_file_of (fs (snd (logout true Demo.alice))) = None /\
  fst (logout false (snd (logout true Demo.alice))) =
    Raise (OpenBBErrorFrom (OpenBBError "Not connected to hub.")) /\
  hub_session (profile (user_settings Demo.anonymous)) = None /\
  fst (logout true Demo.anonymous) =
    Raise (OpenBBErrorFrom (OpenBBError "Not connected to hub.")).
Proof.
  do 4 (split; [reflexivity |]).
  pose proof (proj1 logout_idempotent true false Demo.alice "A" 1
                eq_refl eq_refl eq_refl) as H.
  pose proof (proj2 logout_idempotent true Demo.anonymous eq_refl) as H0.
  destruct (logout true Demo.alice) as [r w'].
  destruct (logout true Demo.anonymous) as [r0 w0].
  destruct H as (_ & _ & _ & Hfile & _ & _ & Hsecond).
  split; [exact Hfile |]. split; [exact Hsecond |].
  split; [reflexivity | exact (proj1 H0)].
Defined.

(** C3 on the anonymous state, which has no session file. *)
Lemma login_without_credentials_needs_session_file_witness :
  session_file_of (fs Demo.anonymous) = None /\
  fst (login None None None true true Demo.anonymous) =
    Raise (OpenBBErrorFrom (OpenBBError "Session not found.")) /\
  remote (snd (login None None None true true Demo.anonymous)) = 0.
Proof.
  split; [reflexivity |].
  pose proof (login_without_credentials_needs_session_file true true
                Demo.anonymous eq_refl) as H.
  destruct (login None None None true true Demo.anonymous) as [r w'].
  destruct H as (Hr & Hremote & _).
  split; [exact Hr | exact Hremote].
Defined.

(** C5 on [alice] logging in with the token [T]: the identity becomes
    that of the hub. *)
Lemma login_takes_remote_identity_witness :
  (forall st u, id (Demo.merge_default st u) = id u) /\
  fst (bind (_create_hub_service None None (Some "T")) hs_pull Demo.alice) =
    Return (Demo.settings_of "T") /\
  id (Demo.settings_of "T") = "hub-T" /\
  id (user_settings Demo.alice) = "alice" /\
  fst (login None None (Some "T") false false Demo.alice) = Return None /\
  id (user_settings (snd (login None None (Some "T") false false Demo.alice)))
    = "hub-T".
Proof.
  split; [intros st u; reflexivity |].
  do 4 (split; [reflexivity |]).
  apply (login_takes_remote_identity None None (Some "T") false false
           Demo.alice
           (snd (bind (_create_hub_service None None (Some "T")) hs_pull
                   Demo.alice))
           (snd (login None None (Some "T") false false Demo.alice))
           (Demo.settings_of "T") "hub-T" None).
  - intros st u. reflexivity.
  - reflexivity.
  - reflexivity.
  - reflexivity.
Defined.

(** C7 on the anonymous state: the hub served no call. *)
Lemma anonymous_save_refresh_stay_local_witness :
  hub_session (profile (user_settings Demo.anonymous)) = None /\
  remote (snd (save true Demo.anonymous)) = 0 /\
  remote (snd (refresh true Demo.anonymous)) = 0.
Proof.
  split; [reflexivity |].
  pose proof (anonymous_save_refresh_stay_local true Demo.anonymous eq_refl)
    as [Hsave Hrefresh].
  destruct (save true Demo.anonymous) as [r1 w1].
  destruct (refresh true Demo.anonymous) as [r2 w2].
  destruct Hsave as (_ & _ & _ & Hsave & _).
  destruct Hrefresh as (_ & _ & _ & Hrefresh & _).
  split; [exact Hsave | exact Hrefresh].
Defined.

(** C8 on a session file cut short. *)
Lemma corrupt_session_is_not_absence_witness :
  session_file_of (fs Demo.corrupted) = Some "{access_token" /\
  Demo.load "{access_token" = inl JSONDecodeError /\
  fst (login None None None false false Demo.corrupted) =
    Raise (OpenBBErrorFrom (SessionLoadExn JSONDecodeError)) /\
  fst (login None None None false false Demo.corrupted) <>
    Raise (OpenBBErrorFrom (OpenBBError "Session not found.")).
Proof.
  do 2 (split; [reflexivity |]).
  pose proof (corrupt_session_is_not_absence false false Demo.corrupted
                "{access_token" JSONDecodeError eq_refl eq_refl) as H.
  destruct (login None None None false false Demo.corrupted) as [r w'].
  destruct H as (Hr & Hdistinct & _).
  split; [exact Hr | exact Hdistinct].
Defined.

(** C9 on [alice] refreshing. *)
Lemma settings_commit_all_or_nothing_witness :
  hub_session (profile (user_settings Demo.alice)) = Some "A" /\
  user_settings (snd (refresh false Demo.alice)) =
    set_id "alice"
      (Demo.merge_default (store Demo.alice) (Demo.settings_of "A")).
Proof.
  split; [reflexivity |].
  pose proof (proj2 settings_commit_all_or_nothing false Demo.alice "A"
                eq_refl) as H.
  destruct (refresh false Demo.alice) as [r w'].
  exact H.
Defined.

(** C10 on [alice] giving an email only, with a session file on disk:
    the small hub refuses the connection, and that is the outcome. *)
Lemma partial_credentials_bypass_session_file_witness :
  is_None (Some "alice@example.com") && is_None (@None string)
    && is_None (@None string) = false /\
  session_file_of (fs Demo.alice) = Some "session=A" /\
  fst (login (Some "alice@example.com") None None false false Demo.alice) <>
    Raise (OpenBBErrorFrom (OpenBBError "Session not found.")) /\
  fst (login (Some "alice@example.com") None None false false Demo.alice) =
    Raise (OpenBBErrorFrom
             (HubServiceExn
                ("Please provide email and password or pat"
                 : @HubExn Demo.types))).
Proof.
  do 2 (split; [reflexivity |]).
  pose proof (partial_credentials_bypass_session_file
                (Some "alice@example.com") None None false false Demo.alice
                eq_refl) as H.
  destruct (login (Some "alice@example.com") None None false false Demo.alice)
    as [r w'].
  destruct H as (_ & Hdistinct & Hconnect).
  simpl in Hconnect. destruct Hconnect as (_ & Hr & _).
  split; [exact Hdistinct | exact Hr].
Defined.




(** A returning call made from inside an [except] block: the audit
    record carries the exception the caller is handling. *)
Example save_logs_the_handled_exception :
  fst (save false Demo.alice_handling) = Return None /\
  map exec_info (records (trace (snd (save false Demo.alice_handling)))) =
    [Some (OtherException true "ValueError")].
Proof. split; reflexivity. Qed.

(** C6, as stated, fails.  [alice] logs in again with a token and
    [remember_me]; the call returns, and on the way the session file
    held a content, the empty one, that is neither the old content nor
    the new serialized session. *)
Lemma login_truncates_before_writing :
  fst (login None None (Some "T") true false Demo.alice) = Return None /\
  exists c,
    In c (file_contents
            (trace (snd (login None None (Some "T") true false Demo.alice)))) /\
    c = Some EmptyString /\
    c <> session_file_of (fs Demo.alice) /\
    c <> session_file_of
           (fs (snd (login None None (Some "T") true false Demo.alice))).
Proof.
  split; [reflexivity |].
  exists (Some EmptyString). simpl.
  split; [left; reflexivity |].
  split; [reflexivity |].
  split; discriminate.
Qed.

(** With a client that has no live session the check made after the
    file is opened raises, and the file stays empty. *)
Example login_guard_leaves_empty_file :
  fst (login (env := Demo.env_no_session) None None (Some "T") true false
         Demo.alice) =
    Raise (OpenBBErrorFrom (OpenBBError "Not connected to hub.")) /\
  session_file_of
    (fs (snd (login (env := Demo.env_no_session) None None (Some "T") true
                false Demo.alice))) = Some EmptyString.
Proof. split; reflexivity. Qed.

(** * Further properties at work on the small hub *)

(** X1: [alice] saves: her settings are pushed and stay as they are. *)
Lemma save_connected_pushes_witness :
  hub_session (profile (user_settings Demo.alice)) = Some "A" /\
  fst (save true Demo.alice) = Return (Some (user_settings Demo.alice)) /\
  user_settings (snd (save true Demo.alice)) = user_settings Demo.alice /\
  store (snd (save true Demo.alice)) = store Demo.alice.
Proof.
  split; [reflexivity |].
  pose proof (save_connected_pushes true Demo.alice "A" eq_refl) as H.
  destruct (save true Demo.alice) as [r w'].
  destruct H as (Hsettings & _ & Hstore & _ & Hpush).
  simpl in Hpush. destruct Hpush as [Hr _].
  split; [exact Hr |]. split; [exact Hsettings | exact Hstore].
Defined.

(** X7: [alice]'s remembered session is resumed by a bare [login]. *)
Lemma login_resumes_stored_session_witness :
  session_file_of (fs Demo.alice) = Some "session=A" /\
  Demo.load "session=A" = inr "A" /\
  user_settings (snd (login None None None false false Demo.alice)) =
    Demo.merge_default (store Demo.alice) (Demo.settings_of "A").
Proof.
  do 2 (split; [reflexivity |]).
  pose proof (login_resumes_stored_session false false Demo.alice
                "session=A" "A" eq_refl eq_refl) as H.
  destruct (login None None None false false Demo.alice) as [r w'].
  destruct H as [_ H]. simpl in H. exact (proj1 H).
Defined.

(** The small hub's serialized sessions load back. *)
Lemma demo_load_dump : forall s : string, Demo.load (Demo.dump s) = inr s.
Proof.
  intros s. unfold Demo.load, Demo.dump. simpl.
  replace (prefix EmptyString s) with true by (destruct s; reflexivity).
  rewrite Nat.sub_0_r. f_equal.
  induction s as [| c s IH]; [reflexivity |].
  simpl. rewrite IH. reflexivity.
Qed.

(** X8: a token login that remembers, then a resolution with no
    credential on what it left. *)
Lemma remember_me_round_trip_witness :
  (forall s, Demo.load (Demo.dump s) = inr s) /\
  fst (login None None (Some "T") true false Demo.anonymous) = Return None /\
  fst (_create_hub_service None None None
         (snd (login None None (Some "T") true false Demo.anonymous))) =
    Return (@Build_HubService Demo.types (Some "T")).
Proof.
  split; [exact demo_load_dump |]. split; [reflexivity |].
  assert (Hlogin :
            login None None (Some "T") true false Demo.anonymous =
              (Return None,
               snd (login None None (Some "T") true false Demo.anonymous)))
    by reflexivity.
  destruct (remember_me_round_trip (T := Demo.types) (env := Demo.env)
              None None (Some "T") false Demo.anonymous _ None
              demo_load_dump Hlogin)
    as (hs & w1 & s & Hcreate & Hsession & Hlater).
  vm_compute in Hcreate. injection Hcreate as <- _.
  simpl in Hsession. injection Hsession as <-.
  exact (Hlater _ eq_refl).
Defined.

(** X9: [alice] asks to be remembered where the parent directory is
    missing. *)
Lemma login_remember_me_parent_missing_witness :
  fst (_create_hub_service None None (Some "T")
         (with_fs ParentMissing Demo.alice)) =
    Return (@Build_HubService Demo.types (Some "T")) /\
  fs (with_fs ParentMissing Demo.alice) = ParentMissing /\
  fst (login None None (Some "T") true false
         (with_fs ParentMissing Demo.alice)) =
    Raise (OpenBBErrorFrom FileNotFoundError) /\
  id (user_settings (snd (login None None (Some "T") true false
                            (with_fs ParentMissing Demo.alice)))) = "hub-T".
Proof.
  do 2 (split; [reflexivity |]).
  pose proof (login_remember_me_parent_missing None None (Some "T") false
                (with_fs ParentMissing Demo.alice) _ _ _ _
                eq_refl eq_refl eq_refl) as H.
  destruct (login None None (Some "T") true false
              (with_fs ParentMissing Demo.alice)) as [r w'].
  destruct H as (Hr & Hsettings & _).
  split; [exact Hr |]. simpl. rewrite Hsettings. reflexivity.
Defined.

(** X10: [alice] asks to be remembered where only the openbb directory is
    missing. *)
Lemma login_remember_me_makes_directory_witness :
  fs (with_fs DirMissing Demo.alice) = DirMissing /\
  fs (snd (login None None (Some "T") true false
             (with_fs DirMissing Demo.alice))) =
    DirPresent (Some "session=T").
Proof.
  split; [reflexivity |].
  pose proof (login_remember_me_makes_directory None None (Some "T") false
                (with_fs DirMissing Demo.alice) _ _ _ _ "T"
                eq_refl eq_refl eq_refl eq_refl) as H.
  destruct (login None None (Some "T") true false
              (with_fs DirMissing Demo.alice)) as [r w'].
  exact (proj1 (proj2 H)).
Defined.

(** X11: a client without a live session: the remembered session of
    [alice] is lost. *)
Lemma login_remember_me_without_session_witness :
  session_file_of (fs Demo.alice) = Some "session=A" /\
  fs Demo.alice <> ParentMissing /\
  fst (login (env := Demo.env_no_session) None None (Some "T") true false
         Demo.alice) =
    Raise (OpenBBErrorFrom (OpenBBError "Not connected to hub.")) /\
  fs (snd (login (env := Demo.env_no_session) None None (Some "T") true false
             Demo.alice)) = DirPresent (Some EmptyString).
Proof.
  split; [reflexivity |]. split; [discriminate |].
  pose proof (login_remember_me_without_session (env := Demo.env_no_session)
                None None (Some "T") false Demo.alice _ _ _ _
                eq_refl eq_refl eq_refl
                (fun H : fs Demo.alice = ParentMissing =>
                   eq_ind (fs Demo.alice)
                     (fun d => match d with
                               | DirPresent _ => True
                               | _ => False
                               end) I ParentMissing H)) as H.
  destruct (login (env := Demo.env_no_session) None None (Some "T") true false
              Demo.alice) as [r w'].
  destruct H as (Hr & Hfs & _).
  split; [exact Hr | exact Hfs].
Defined.

(** X12: the hub is down when [alice] logs out: she stays connected and
    keeps her session file. *)
Lemma logout_disconnect_raises_witness :
  hub_session (profile (user_settings Demo.alice)) = Some "A" /\
  fst (logout (env := Demo.env_hub_down) false Demo.alice) =
    Raise (OpenBBErrorFrom (HubServiceExn ("unavailable" : @HubExn Demo.types))) /\
  fs (snd (logout (env := Demo.env_hub_down) false Demo.alice)) =
    DirPresent (Some "session=A").
Proof.
  split; [reflexivity |].
  pose proof (logout_disconnect_raises (env := Demo.env_hub_down) false
                Demo.alice "A" "unavailable" 0 eq_refl eq_refl) as H.
  destruct (logout (env := Demo.env_hub_down) false Demo.alice) as [r w'].
  destruct H as (Hr & _ & Hfs).
  split; [exact Hr | exact Hfs].
Defined.

(** The ASCII mapping gives capitals, which it leaves alone. *)
Lemma ascii_upper_stable :
  forall c, str_upper Demo.ascii_upper (Demo.ascii_upper c) = Demo.ascii_upper c.
Proof.
  assert (Hkept : forall d,
            Nat.leb 97 d && Nat.leb d 122 = false ->
            str_upper Demo.ascii_upper [d] = [d]).
  { intros d Hd. unfold str_upper. cbn [flat_map].
    unfold Demo.ascii_upper. rewrite Hd. reflexivity. }
  intros c. unfold Demo.ascii_upper at 2 3.
  destruct (Nat.leb 97 c && Nat.leb c 122) eqn:Hlower.
  - apply andb_prop in Hlower. destruct Hlower as [Hlow Hhigh].
    apply Nat.leb_le in Hlow. apply Nat.leb_le in Hhigh.
    apply Hkept. apply andb_false_iff. left. apply Nat.leb_gt. lia.
  - apply Hkept. exact Hlower.
Qed.

(** X13: two tickers, as a list and as one text. *)
Lemma symbols_as_list_or_joined_witness :
  Demo.ascii_upper 44 = [44] /\
  InstitutionalOwnershipData.upper_symbol Demo.ascii_upper
    (OfList [Demo.code_points "aapl"; Demo.code_points "msft"]) =
  InstitutionalOwnershipData.upper_symbol Demo.ascii_upper
    (OfStr (Demo.code_points "aapl,msft")).
Proof.
  split; [reflexivity |].
  exact (proj1 (symbols_as_list_or_joined Demo.ascii_upper eq_refl
                  [Demo.code_points "aapl"; Demo.code_points "msft"])).
Defined.

(** X14 on the ASCII tickers. *)
Lemma upper_symbol_idempotent_witness :
  (forall c, str_upper Demo.ascii_upper (Demo.ascii_upper c) =
             Demo.ascii_upper c) /\
  Demo.ascii_upper 44 = [44] /\
  InstitutionalOwnershipData.upper_symbol Demo.ascii_upper
    (OfStr (InstitutionalOwnershipData.upper_symbol Demo.ascii_upper
              (OfSet [Demo.code_points "brk.b"; Demo.code_points "msft"]))) =
  Demo.code_points "BRK.B,MSFT".
Proof.
  split; [exact ascii_upper_stable |]. split; [reflexivity |].
  rewrite (upper_symbol_idempotent Demo.ascii_upper ascii_upper_stable
             eq_refl).
  reflexivity.
Defined.

(** X15 on the ASCII tickers. *)
Lemma query_symbol_kept_by_data_witness :
  (forall c, str_upper Demo.ascii_upper (Demo.ascii_upper c) =
             Demo.ascii_upper c) /\
  InstitutionalOwnershipData.upper_symbol Demo.ascii_upper
    (OfStr (InstitutionalOwnershipQueryParams.upper_symbol Demo.ascii_upper
              (Demo.code_points "aapl"))) =
  Demo.code_points "AAPL".
Proof.
  split; [exact ascii_upper_stable |].
  rewrite (query_symbol_kept_by_data Demo.ascii_upper ascii_upper_stable).
  reflexivity.
Defined.
